(** * app.js: startup and readiness gate of the MindAR / A-Frame page

    A shallow embedding of [src/app.js].  The module-level [let] bindings
    and the DOM properties the script writes form one [State] record; every
    function and listener of the script is a computation in a small
    state-and-exception monad; the external calls (camera, AR engine,
    console, alert) are recorded in a trace.  The two [async] functions are
    cut at their [await] on an external promise: the part before it runs in
    the task of the caller, the part after it runs when the promise
    settles, and the event loop [step] delivers both. *)

From Stdlib Require Import Bool List String Arith NArith Lia Permutation.
Import ListNotations.
Open Scope string_scope.
Open Scope list_scope.

(** ** External effects *)

Inductive Effect : Type :=
| ConsoleLog (args : list string)      (* console.log(...) *)
| ConsoleWarn (args : list string)     (* console.warn(...) *)
| ConsoleError (args : list string)    (* console.error(...) *)
| Alert (msg : string)                 (* alert(msg) *)
| GetUserMedia                         (* navigator.mediaDevices.getUserMedia({ video: true }) *)
| TrackStop (i : nat)                  (* t.stop() on the i-th track of the stream *)
| EngineStart                          (* arSystem.start() *)
| WindowOpen (url target : string)     (* window.open(url, target) *)
| SetTimeout (ms : N).                 (* setTimeout(callback, ms) *)

(** ** Session state *)

Record State : Type := mkState {
  arReady : bool;                (* let arReady *)
  modelReady : bool;             (* let modelReady *)
  arStarted : bool;              (* let arStarted *)
  startBtnDisabled : bool;       (* startBtn.disabled *)
  overlayDisplay : string;       (* overlay.style.display *)
  guideDisplay : string;         (* guideEl.style.display *)
  statusText : string;           (* statusEl.textContent *)
  modelVisible : string;         (* gltfModel attribute 'visible' *)
  trace : list Effect;           (* external calls made so far, most recent first *)
  awaitingCamera : nat;          (* click handlers suspended on getUserMedia *)
  awaitingStart : nat;           (* startAR calls suspended on arSystem.start() *)
  timers : nat                   (* pending setTimeout callbacks *)
}.

Definition set_arReady (b : bool) (s : State) : State :=
  mkState b (modelReady s) (arStarted s) (startBtnDisabled s) (overlayDisplay s)
          (guideDisplay s) (statusText s) (modelVisible s) (trace s)
          (awaitingCamera s) (awaitingStart s) (timers s).

Definition set_modelReady (b : bool) (s : State) : State :=
  mkState (arReady s) b (arStarted s) (startBtnDisabled s) (overlayDisplay s)
          (guideDisplay s) (statusText s) (modelVisible s) (trace s)
          (awaitingCamera s) (awaitingStart s) (timers s).

Definition set_arStarted (b : bool) (s : State) : State :=
  mkState (arReady s) (modelReady s) b (startBtnDisabled s) (overlayDisplay s)
          (guideDisplay s) (statusText s) (modelVisible s) (trace s)
          (awaitingCamera s) (awaitingStart s) (timers s).

Definition set_startBtnDisabled (b : bool) (s : State) : State :=
  mkState (arReady s) (modelReady s) (arStarted s) b (overlayDisplay s)
          (guideDisplay s) (statusText s) (modelVisible s) (trace s)
          (awaitingCamera s) (awaitingStart s) (timers s).

Definition set_overlayDisplay (v : string) (s : State) : State :=
  mkState (arReady s) (modelReady s) (arStarted s) (startBtnDisabled s) v
          (guideDisplay s) (statusText s) (modelVisible s) (trace s)
          (awaitingCamera s) (awaitingStart s) (timers s).

Definition set_guideDisplay (v : string) (s : State) : State :=
  mkState (arReady s) (modelReady s) (arStarted s) (startBtnDisabled s) (overlayDisplay s)
          v (statusText s) (modelVisible s) (trace s)
          (awaitingCamera s) (awaitingStart s) (timers s).

Definition set_statusText (v : string) (s : State) : State :=
  mkState (arReady s) (modelReady s) (arStarted s) (startBtnDisabled s) (overlayDisplay s)
          (guideDisplay s) v (modelVisible s) (trace s)
          (awaitingCamera s) (awaitingStart s) (timers s).

Definition set_modelVisible (v : string) (s : State) : State :=
  mkState (arReady s) (modelReady s) (arStarted s) (startBtnDisabled s) (overlayDisplay s)
          (guideDisplay s) (statusText s) v (trace s)
          (awaitingCamera s) (awaitingStart s) (timers s).

Definition set_trace (t : list Effect) (s : State) : State :=
  mkState (arReady s) (modelReady s) (arStarted s) (startBtnDisabled s) (overlayDisplay s)
          (guideDisplay s) (statusText s) (modelVisible s) t
          (awaitingCamera s) (awaitingStart s) (timers s).

Definition set_awaitingCamera (n : nat) (s : State) : State :=
  mkState (arReady s) (modelReady s) (arStarted s) (startBtnDisabled s) (overlayDisplay s)
          (guideDisplay s) (statusText s) (modelVisible s) (trace s)
          n (awaitingStart s) (timers s).

Definition set_awaitingStart (n : nat) (s : State) : State :=
  mkState (arReady s) (modelReady s) (arStarted s) (startBtnDisabled s) (overlayDisplay s)
          (guideDisplay s) (statusText s) (modelVisible s) (trace s)
          (awaitingCamera s) n (timers s).

Definition set_timers (n : nat) (s : State) : State :=
  mkState (arReady s) (modelReady s) (arStarted s) (startBtnDisabled s) (overlayDisplay s)
          (guideDisplay s) (statusText s) (modelVisible s) (trace s)
          (awaitingCamera s) (awaitingStart s) n.

(** The state when the script has run its top level (lines 8-20): the three
    flags are false, nothing has been called and nothing is pending.  What
    the page's markup gives the DOM properties is not part of the script,
    so it is a parameter. *)
Definition initState (disabled : bool) (overlay guide status visible : string) : State :=
  mkState false false false disabled overlay guide status visible [] 0 0 0.

(** The three flags, and what the user sees. *)
Definition flags (s : State) : bool * bool * bool :=
  (arReady s, modelReady s, arStarted s).

Definition ui (s : State) : bool * string * string * string * string :=
  (startBtnDisabled s, overlayDisplay s, guideDisplay s, statusText s, modelVisible s).

Definition pending (s : State) : nat * nat * nat :=
  (awaitingCamera s, awaitingStart s, timers s).

(** ** The monad: state, and exceptions that carry the state reached *)

Inductive Res (A : Type) : Type :=
| Ok (a : A) (s : State)
| Thrown (e : string) (s : State).
Arguments Ok {A} a s.
Arguments Thrown {A} e s.

Definition M (A : Type) : Type := State -> Res A.

Definition ret {A} (a : A) : M A := fun s => Ok a s.

Definition bind {A B} (m : M A) (k : A -> M B) : M B :=
  fun s => match m s with
           | Ok a s' => k a s'
           | Thrown e s' => Thrown e s'
           end.

Definition throw {A} (e : string) : M A := fun s => Thrown e s.

(* try { body } catch (e) { handler(e) } *)
Definition try_catch {A} (body : M A) (handler : string -> M A) : M A :=
  fun s => match body s with
           | Ok a s' => Ok a s'
           | Thrown e s' => handler e s'
           end.

Definition gets {A} (f : State -> A) : M A := fun s => Ok (f s) s.
Definition modify (f : State -> State) : M unit := fun s => Ok tt (f s).

Declare Scope js_scope.
Delimit Scope js_scope with js.
Notation "x <- c1 ;; c2" := (bind c1 (fun x => c2))
  (at level 61, c1 at next level, right associativity) : js_scope.
Notation "c1 ;; c2" := (bind c1 (fun _ => c2))
  (at level 61, right associativity) : js_scope.
Open Scope js_scope.

(** The state a computation ends in, whether it returned or threw, and
    whether it returned. *)
Definition exec {A} (m : M A) (s : State) : State :=
  match m s with
  | Ok _ s' => s'
  | Thrown _ s' => s'
  end.

Definition returns {A} (m : M A) (s : State) : bool :=
  match m s with
  | Ok _ _ => true
  | Thrown _ _ => false
  end.

Definition emit (e : Effect) : M unit :=
  modify (fun s => set_trace (e :: trace s) s).

Definition console_log (args : list string) : M unit := emit (ConsoleLog args).
Definition console_warn (args : list string) : M unit := emit (ConsoleWarn args).
Definition console_error (args : list string) : M unit := emit (ConsoleError args).

(** ** The host: what the browser and the AR library answer *)

(** A call either returns (for the two calls below, a promise that settles
    later) or throws at once. *)
Inductive CallResult : Type :=
| Returns
| ThrowsSync (e : string).

(** What the lookup scene.systems['mindar-image-system'] of line 46 gives:
    the system; undefined, when the scene has no system of that name; or a
    TypeError, when the scene has no systems object at all (the a-scene
    element was never set up by A-Frame). *)
Inductive Lookup : Type :=
| SystemPresent
| SystemAbsent
| LookupThrows (e : string).

Record Host : Type := mkHost {
  mediaDevices : bool;            (* navigator.mediaDevices && navigator.mediaDevices.getUserMedia *)
  getUserMediaCall : CallResult;  (* what calling getUserMedia does *)
  systemLookup : Lookup;          (* what scene.systems['mindar-image-system'] gives *)
  startCall : CallResult          (* what calling arSystem.start() does *)
}.

(* the lookup gives the AR system *)
Definition arSystem (h : Host) : bool :=
  match systemLookup h with
  | SystemPresent => true
  | SystemAbsent => false
  | LookupThrows _ => false
  end.

Inductive Settled (A : Type) : Type :=
| Fulfilled (v : A)
| Rejected (e : string).
Arguments Fulfilled {A} v.
Arguments Rejected {A} e.

(** How an [async] function leaves the task that called it. *)
Inductive Ctl : Type :=
| Finished     (* ran to its end *)
| Suspended.   (* waits on an external promise *)

(** ** The script *)

Definition msgStarting : string := "Starting AR engine — initializing camera...".
Definition msgNoSystem : string := "Error: AR system not available.".
Definition msgStartFailed : string := "AR start failed. Is camera permission granted?".
Definition msgEngineReady : string := "AR engine ready.".
Definition msgEngineError : string :=
  "AR engine error — camera unavailable or permission denied.".
Definition msgAlert : string :=
  "AR failed to start. Ensure camera permission is allowed and this page is served over HTTPS (or use local server).".
Definition msgReveal : string := "AR ready — point camera at the image target.".
Definition msgRequesting : string := "Requesting camera access (user gesture) ...".
Definition msgStall : string :=
  "Waiting for camera — if nothing happens, enable camera permission and reload.".

(* lines 22-25 *)
Definition logStatus (txt : string) : M unit :=
  modify (set_statusText txt) ;;
  console_log ["[EnterpriseAR]"; txt].

(* s.getTracks().forEach(t => t.stop()) on a stream of n tracks *)
Fixpoint stopTracks (i n : nat) : M unit :=
  match n with
  | 0 => ret tt
  | S n' => emit (TrackStop i) ;; stopTracks (S i) n'
  end.

(* lines 28-31: warmCameraPermission up to its await *)
Definition warmCameraPermission (h : Host) : M Ctl :=
  if negb (mediaDevices h) then ret Finished
  else
    try_catch
      (emit GetUserMedia ;;
       match getUserMediaCall h with
       | ThrowsSync e => throw e
       | Returns =>
           n <- gets awaitingCamera ;;
           modify (set_awaitingCamera (S n)) ;;
           ret Suspended
       end)
      (fun e => console_warn ["warmCameraPermission failed:"; e] ;; ret Finished).

(* lines 31-37: warmCameraPermission from its await on, with the promise settled *)
Definition warmCameraPermission_resume (o : Settled nat) : M unit :=
  try_catch
    (match o with
     | Rejected e => throw e
     | Fulfilled n =>
         stopTracks 0 n ;;
         console_log ["Camera permission warmed"]
     end)
    (fun e => console_warn ["warmCameraPermission failed:"; e]).

(* line 46: scene.systems['mindar-image-system'], truthy or not; the lookup
   is outside the try of startAR, so its TypeError leaves startAR *)
Definition lookupSystem (h : Host) : M bool :=
  match systemLookup h with
  | SystemPresent => ret true
  | SystemAbsent => ret false
  | LookupThrows e => throw e
  end.

(* lines 41-53: startAR up to its await *)
Definition startAR (h : Host) : M Ctl :=
  started <- gets arStarted ;;
  if started then ret Finished
  else
    modify (set_arStarted true) ;;
    logStatus msgStarting ;;
    found <- lookupSystem h ;;
    if negb found then
      logStatus msgNoSystem ;;
      ret Finished
    else
      try_catch
        (emit EngineStart ;;
         match startCall h with
         | ThrowsSync e => throw e
         | Returns =>
             n <- gets awaitingStart ;;
             modify (set_awaitingStart (S n)) ;;
             ret Suspended
         end)
        (fun err =>
           console_error ["arSystem.start() failed"; err] ;;
           logStatus msgStartFailed ;;
           ret Finished).

(* lines 53-58: startAR from its await on, with the promise settled *)
Definition startAR_resume (o : Settled unit) : M unit :=
  try_catch
    (match o with
     | Rejected e => throw e
     | Fulfilled _ => ret tt
     end)
    (fun err =>
       console_error ["arSystem.start() failed"; err] ;;
       logStatus msgStartFailed).

(* lines 93-99 *)
Definition checkHideOverlay : M unit :=
  a <- gets arReady ;;
  m <- gets modelReady ;;
  if a && m then
    modify (set_overlayDisplay "none") ;;
    modify (set_guideDisplay "block") ;;
    logStatus msgReveal
  else ret tt.

(* lines 62-66: scene 'arReady' *)
Definition onEngineReady : M unit :=
  modify (set_arReady true) ;;
  logStatus msgEngineReady ;;
  checkHideOverlay.

(* lines 68-72: scene 'arError' *)
Definition onEngineError (ev : string) : M unit :=
  console_error ["MindAR arError"; ev] ;;
  logStatus msgEngineError ;;
  emit (Alert msgAlert).

(* lines 75-79: gltfModel 'model-loaded' *)
Definition onAssetReady : M unit :=
  modify (set_modelReady true) ;;
  console_log ["Model loaded"] ;;
  checkHideOverlay.

(* lines 82-85: targetEntity 'targetFound' *)
Definition onTargetFound : M unit :=
  modify (set_modelVisible "true") ;;
  modify (set_guideDisplay "none").

(* lines 87-90: targetEntity 'targetLost' *)
Definition onTargetLost : M unit :=
  modify (set_modelVisible "false") ;;
  modify (set_guideDisplay "block").

(* lines 102-106: startBtn 'click', up to the first await that suspends *)
Definition onStartClick (h : Host) : M Ctl :=
  modify (set_startBtnDisabled true) ;;
  logStatus msgRequesting ;;
  c <- warmCameraPermission h ;;
  match c with
  | Suspended => ret Suspended
  | Finished => startAR h
  end.

(* lines 105-106: the click handler once getUserMedia has settled *)
Definition onStartClick_resume (o : Settled nat) (h : Host) : M Ctl :=
  warmCameraPermission_resume o ;;
  startAR h.

(* lines 110-112: previewBtn 'click' *)
Definition onPreviewClick : M unit :=
  emit (WindowOpen "preview.html" "_blank").

(* lines 117-119: the callback given to setTimeout *)
Definition stallCheck : M unit :=
  a <- gets arReady ;;
  if negb a then logStatus msgStall else ret tt.

(* lines 115-121: window 'load' *)
Definition onLoad : M unit :=
  emit (SetTimeout 8000%N) ;;
  n <- gets timers ;;
  modify (set_timers (S n)).

(** ** The event loop *)

Inductive Event : Type :=
| EvStartClick (h : Host)                       (* click on startBtn *)
| EvCameraSettled (o : Settled nat) (h : Host)  (* a getUserMedia promise settles *)
| EvStartSettled (o : Settled unit)             (* an arSystem.start() promise settles *)
| EvArReady
| EvArError (ev : string)
| EvModelLoaded
| EvTargetFound
| EvTargetLost
| EvPreviewClick
| EvLoad
| EvTimer.                                      (* a timer set by onLoad fires *)

(** One task of the event loop.  A settlement or a timer with nothing
    pending for it cannot happen and is ignored. *)
Definition handle (e : Event) : M unit :=
  match e with
  | EvStartClick h => onStartClick h ;; ret tt
  | EvCameraSettled o h =>
      n <- gets awaitingCamera ;;
      match n with
      | 0 => ret tt
      | S n' => modify (set_awaitingCamera n') ;; onStartClick_resume o h ;; ret tt
      end
  | EvStartSettled o =>
      n <- gets awaitingStart ;;
      match n with
      | 0 => ret tt
      | S n' => modify (set_awaitingStart n') ;; startAR_resume o
      end
  | EvArReady => onEngineReady
  | EvArError ev => onEngineError ev
  | EvModelLoaded => onAssetReady
  | EvTargetFound => onTargetFound
  | EvTargetLost => onTargetLost
  | EvPreviewClick => onPreviewClick
  | EvLoad => onLoad
  | EvTimer =>
      n <- gets timers ;;
      match n with
      | 0 => ret tt
      | S n' => modify (set_timers n') ;; stallCheck
      end
  end.

Definition step (e : Event) (s : State) : State := exec (handle e) s.

Definition run (es : list Event) (s : State) : State :=
  fold_left (fun s e => step e s) es s.

(** ** Observations on the trace *)

Definition isEngineStart (e : Effect) : bool :=
  match e with
  | EngineStart => true
  | _ => false
  end.

(* how many times arSystem.start() has been called *)
Definition engineStarts (s : State) : nat :=
  List.length (filter isEngineStart (trace s)).

Definition isStatus (txt : string) (e : Effect) : bool :=
  match e with
  | ConsoleLog [p; t] => String.eqb p "[EnterpriseAR]" && String.eqb t txt
  | _ => false
  end.

(* how many times logStatus(txt) has run *)
Definition statusCount (txt : string) (s : State) : nat :=
  List.length (filter (isStatus txt) (trace s)).

(* how many times checkHideOverlay has taken its branch *)
Definition reveals (s : State) : nat := statusCount msgReveal s.

Definition isGetUserMedia (e : Effect) : bool :=
  match e with
  | GetUserMedia => true
  | _ => false
  end.

(* how many times getUserMedia has been called *)
Definition cameraRequests (s : State) : nat :=
  List.length (filter isGetUserMedia (trace s)).

(** ** Sequences of calls *)

(** The two readiness signals, and the delivery of a sequence of them. *)
Inductive Signal : Type :=
| SigEngine    (* scene 'arReady' *)
| SigAsset.    (* gltfModel 'model-loaded' *)

Definition signalEvent (g : Signal) : Event :=
  match g with
  | SigEngine => EvArReady
  | SigAsset => EvModelLoaded
  end.

Definition deliver (sigs : list Signal) (s : State) : State :=
  run (map signalEvent sigs) s.

Definition bothReady (s : State) : bool := arReady s && modelReady s.

(** A flag over one operation: left as it was, or set from false to true. *)
Definition unchanged_or_set (before after : bool) : Prop :=
  after = before \/ (before = false /\ after = true).

(** The target state of the reveal: overlay hidden, guide shown, ready
    status. *)
Definition revealed (s : State) : bool :=
  String.eqb (overlayDisplay s) "none" &&
  String.eqb (guideDisplay s) "block" &&
  String.eqb (statusText s) msgReveal.

(** Successive calls of startAR, each with what the host answers then. *)
Definition startAR_calls (hs : list Host) (s : State) : State :=
  fold_left (fun s h => exec (startAR h) s) hs s.

(** The trace entries of s.getTracks().forEach(t => t.stop()) on a stream
    of n tracks numbered from i, most recent first. *)
Definition stopped (i n : nat) : list Effect :=
  rev (map TrackStop (seq i n)).

(** Hosts and states of the examples. *)
Definition hostReady : Host := mkHost true Returns SystemPresent Returns.
Definition hostNoSystem : Host := mkHost true Returns SystemAbsent Returns.
Definition hostNoCamera : Host := mkHost false Returns SystemPresent Returns.
Definition hostStartThrows : Host :=
  mkHost true Returns SystemPresent (ThrowsSync "NotReadableError").
Definition hostNoScene : Host :=
  mkHost true Returns
         (LookupThrows "TypeError: Cannot read properties of undefined") Returns.
Definition hostCameraThrows : Host :=
  mkHost true (ThrowsSync "TypeError: getUserMedia") SystemPresent Returns.
Definition pageLoaded : State := initState false "flex" "none" "Tap Start" "false".

(** ** Further observations *)

(** The text of the most recent logStatus call recorded in a trace. *)
Fixpoint lastStatus (tr : list Effect) : option string :=
  match tr with
  | [] => None
  | ConsoleLog [p; t] :: tr' =>
      if String.eqb p "[EnterpriseAR]" then Some t else lastStatus tr'
  | _ :: tr' => lastStatus tr'
  end.

(** How many entries of the trace satisfy a test. *)
Definition effectCount (p : Effect -> bool) (s : State) : nat :=
  List.length (filter p (trace s)).

Definition isTrackStop (e : Effect) : bool :=
  match e with
  | TrackStop _ => true
  | _ => false
  end.

Definition isAlert (e : Effect) : bool :=
  match e with
  | Alert _ => true
  | _ => false
  end.

Definition isWindowOpen (e : Effect) : bool :=
  match e with
  | WindowOpen _ _ => true
  | _ => false
  end.

Definition isSetTimeout (e : Effect) : bool :=
  match e with
  | SetTimeout _ => true
  | _ => false
  end.

(** Kinds of events. *)
Definition isPreviewEv (e : Event) : bool :=
  match e with
  | EvPreviewClick => true
  | _ => false
  end.

Definition isArErrorEv (e : Event) : bool :=
  match e with
  | EvArError _ => true
  | _ => false
  end.

Definition isLoadEv (e : Event) : bool :=
  match e with
  | EvLoad => true
  | _ => false
  end.

Definition isArReadyEv (e : Event) : bool :=
  match e with
  | EvArReady => true
  | _ => false
  end.

Definition isModelLoadedEv (e : Event) : bool :=
  match e with
  | EvModelLoaded => true
  | _ => false
  end.

(* a click on the start button in a browser that has getUserMedia *)
Definition isClickWithCamera (e : Event) : bool :=
  match e with
  | EvStartClick h => mediaDevices h
  | _ => false
  end.

(** What the tracker said last in a schedule: found, lost, or nothing. *)
Fixpoint lastTracker (es : list Event) : option bool :=
  match es with
  | [] => None
  | e :: es' =>
      match lastTracker es' with
      | Some b => Some b
      | None =>
          match e with
          | EvTargetFound => Some true
          | EvTargetLost => Some false
          | _ => None
          end
      end
  end.

(* the click handler is left waiting for the camera: getUserMedia is there
   and its call returns a promise *)
Definition suspendsOnCamera (h : Host) : bool :=
  mediaDevices h &&
  match getUserMediaCall h with
  | Returns => true
  | ThrowsSync _ => false
  end.

(** A state with the window.open calls taken out of its trace. *)
Definition withoutPreview (s : State) : State :=
  set_trace (filter (fun e => negb (isWindowOpen e)) (trace s)) s.

(** * Properties *)

(** ** The monad and the trace *)

Ltac unfold_script :=
  unfold step, exec, returns, handle,
    onStartClick, onStartClick_resume, onPreviewClick, onLoad, stallCheck,
    onEngineReady, onEngineError, onAssetReady, onTargetFound, onTargetLost,
    checkHideOverlay, startAR, startAR_resume, lookupSystem,
    warmCameraPermission, warmCameraPermission_resume,
    logStatus, console_log, console_warn, console_error, emit,
    try_catch, throw, bind, ret, gets, modify in *.

Lemma stopTracks_spec : forall n i s,
  stopTracks i n s = Ok tt (set_trace (stopped i n ++ trace s) s).
Proof.
  induction n as [|n IH]; intros i s.
  - destruct s; reflexivity.
  - cbn [stopTracks]. unfold bind, emit, modify. rewrite IH.
    unfold stopped. cbn [seq map rev].
    destruct s; cbn. rewrite <- app_assoc. reflexivity.
Qed.

Lemma stopped_no_start : forall n i, filter isEngineStart (stopped i n) = [].
Proof.
  intros n i. unfold stopped.
  induction (seq i n) as [|a l IH]; [reflexivity|].
  cbn [map rev]. rewrite filter_app, IH. reflexivity.
Qed.

Lemma stopped_no_status : forall txt n i, filter (isStatus txt) (stopped i n) = [].
Proof.
  intros txt n i. unfold stopped.
  induction (seq i n) as [|a l IH]; [reflexivity|].
  cbn [map rev]. rewrite filter_app, IH. reflexivity.
Qed.

(* Symbolic execution of a task: unfold the script, then split on whatever
   variable a conditional of the script still looks at. *)
Ltac split_on_tests :=
  repeat (simpl; rewrite ?stopTracks_spec;
          match goal with
          | |- context [match ?x with _ => _ end] => is_var x; destruct x
          | |- context [match negb ?x with _ => _ end] => is_var x; destruct x
          | |- context [match ?x && _ with _ => _ end] => is_var x; destruct x
          | |- context [match _ && ?x with _ => _ end] => is_var x; destruct x
          end);
  simpl; rewrite ?stopTracks_spec; simpl.

Ltac symbolic_step e s :=
  destruct s as [a m st d ov g tx v tr nc ns nt];
  destruct e as [[md gc sys sc]|o [md gc sys sc]|o| |ev| | | | | |];
  unfold_script; split_on_tests.

Lemma le_refl_bool : forall b, Bool.le b b.
Proof. intros []; cbn; auto. Qed.

Lemma le_true_bool : forall b, Bool.le b true.
Proof. intros []; cbn; auto. Qed.

Lemma step_flags_le : forall e s,
  Bool.le (arReady s) (arReady (step e s)) /\
  Bool.le (modelReady s) (modelReady (step e s)) /\
  Bool.le (arStarted s) (arStarted (step e s)).
Proof.
  intros e s.
  symbolic_step e s; repeat split; auto using le_refl_bool, le_true_bool.
Qed.

Lemma le_unchanged_or_set : forall b b', Bool.le b b' -> unchanged_or_set b b'.
Proof.
  intros [] [] H; unfold unchanged_or_set; cbn in H; auto; discriminate.
Qed.

Lemma run_cons : forall e es s, run (e :: es) s = run es (step e s).
Proof. reflexivity. Qed.

Lemma run_app : forall es1 es2 s, run (es1 ++ es2) s = run es2 (run es1 s).
Proof. intros. unfold run. apply fold_left_app. Qed.

Lemma le_trans_bool : forall a b c, Bool.le a b -> Bool.le b c -> Bool.le a c.
Proof. intros [] [] []; cbn; auto; discriminate. Qed.

Lemma run_flags_le : forall es s,
  Bool.le (arReady s) (arReady (run es s)) /\
  Bool.le (modelReady s) (modelReady (run es s)) /\
  Bool.le (arStarted s) (arStarted (run es s)).
Proof.
  induction es as [|e es IH]; intros s.
  - cbn. repeat split; apply le_refl_bool.
  - rewrite run_cons.
    destruct (step_flags_le e s) as (H1 & H2 & H3).
    destruct (IH (step e s)) as (K1 & K2 & K3).
    repeat split; eapply le_trans_bool; eauto.
Qed.

(** ** Sessions on concrete pages *)

(* Model before engine: nothing is revealed until 'arReady' arrives. *)
Example asset_before_engine :
  revealed (deliver [SigAsset] pageLoaded) = false /\
  reveals (deliver [SigAsset] pageLoaded) = 0 /\
  revealed (deliver [SigAsset; SigEngine] pageLoaded) = true /\
  reveals (deliver [SigAsset; SigEngine] pageLoaded) = 1.
Proof. vm_compute. repeat split. Qed.

(* A browser without getUserMedia: the click runs startAR in the same task. *)
Example click_without_camera_api :
  let s := step (EvStartClick hostNoCamera) pageLoaded in
  flags s = (false, false, true) /\
  cameraRequests s = 0 /\ engineStarts s = 1 /\
  pending s = (0, 1, 0) /\ statusText s = msgStarting.
Proof. vm_compute. repeat split. Qed.

(* Camera denied, then the engine start rejected. *)
Example denied_then_rejected :
  let s := run [EvStartClick hostReady;
                EvCameraSettled (Rejected "NotAllowedError") hostReady;
                EvStartSettled (Rejected "boot failed")] pageLoaded in
  flags s = (false, false, true) /\
  cameraRequests s = 1 /\ engineStarts s = 1 /\
  pending s = (0, 0, 0) /\ statusText s = msgStartFailed /\
  startBtnDisabled s = true.
Proof. vm_compute. repeat split. Qed.

(** ** The flags *)

(** C6: each of arReady, modelReady and arStarted is monotonic.  Every task
    of the event loop (every listener, and every continuation of startAR and
    of the click handler), in every state, leaves each flag as it was or
    sets it from false to true; over any sequence of tasks a flag that is
    true stays true. *)
Theorem flags_monotonic : forall (e : Event) (es : list Event) (s : State),
  unchanged_or_set (arReady s) (arReady (step e s)) /\
  unchanged_or_set (modelReady s) (modelReady (step e s)) /\
  unchanged_or_set (arStarted s) (arStarted (step e s)) /\
  Bool.le (arReady s) (arReady (run es s)) /\
  Bool.le (modelReady s) (modelReady (run es s)) /\
  Bool.le (arStarted s) (arStarted (run es s)).
Proof.
  intros e es s.
  destruct (step_flags_le e s) as (H1 & H2 & H3).
  destruct (run_flags_le es s) as (K1 & K2 & K3).
  repeat split; auto using le_unchanged_or_set.
Qed.

(** C5: the 'arError' listener returns normally in every state and leaves
    arReady, modelReady and arStarted as they were; it sets the failure
    status and raises the alert. *)
Theorem onEngineError_keeps_flags : forall (ev : string) (s : State),
  returns (onEngineError ev) s = true /\
  flags (exec (onEngineError ev) s) = flags s /\
  flags (step (EvArError ev) s) = flags s /\
  statusText (exec (onEngineError ev) s) = msgEngineError /\
  hd_error (trace (exec (onEngineError ev) s)) = Some (Alert msgAlert).
Proof.
  intros ev s. unfold step.
  unfold onEngineError, logStatus, console_error, console_log, emit.
  unfold returns, exec, bind, modify, handle. cbn.
  repeat split.
Qed.

(** C7: targetFound directly followed by targetLost, from any state, ends
    with the model's visible attribute 'false' and the guide displayed as
    'block'; the flags play no part: they are not changed, and changing them
    beforehand changes nothing of what the page shows afterwards. *)
Theorem found_then_lost : forall (s : State) (a m st : bool),
  let s' := run [EvTargetFound; EvTargetLost] s in
  modelVisible s' = "false" /\
  guideDisplay s' = "block" /\
  flags s' = flags s /\
  returns onTargetFound s = true /\
  returns onTargetLost (step EvTargetFound s) = true /\
  ui (run [EvTargetFound; EvTargetLost]
        (set_arReady a (set_modelReady m (set_arStarted st s)))) = ui s'.
Proof.
  intros s a m st. cbn. repeat split.
Qed.

(** C8: the callback of the 8-second timer logs the waiting message exactly
    when arReady is false and does nothing otherwise; it returns normally,
    changes no flag, leaves every pending promise and timer in place, calls
    neither arSystem.start() nor getUserMedia, and does not depend on
    modelReady.  Delivered by the event loop after 'load', it does the same. *)
Theorem stallCheck_passive : forall (s : State) (b : bool),
  returns stallCheck s = true /\
  exec stallCheck s = (if arReady s then s else exec (logStatus msgStall) s) /\
  (statusCount msgStall (exec stallCheck s) = S (statusCount msgStall s)
     <-> arReady s = false) /\
  (exec stallCheck s = s <-> arReady s = true) /\
  flags (exec stallCheck s) = flags s /\
  pending (exec stallCheck s) = pending s /\
  engineStarts (exec stallCheck s) = engineStarts s /\
  cameraRequests (exec stallCheck s) = cameraRequests s /\
  exec stallCheck (set_modelReady b s) = set_modelReady b (exec stallCheck s) /\
  flags (run [EvLoad; EvTimer] s) = flags s /\
  statusText (run [EvLoad; EvTimer] s) = (if arReady s then statusText s else msgStall).
Proof.
  intros [a m st d ov g tx v tr nc ns nt] b.
  destruct a; cbn; repeat split; intros; try discriminate; auto.
  - exfalso. cbn in H. unfold statusCount in H. cbn in H. lia.
  - injection H as _ H. exfalso.
    apply (f_equal (@List.length Effect)) in H. cbn in H. lia.
Qed.

(** C9: the 'arReady' and the 'model-loaded' listeners are idempotent on
    the flags and on what the page shows: run a second time, each returns
    normally and leaves the flags and the page as the first run left them.
    The reveal is declarative: with both flags true, each listener puts the
    page in the same target state, whatever it showed before. *)
Theorem ready_handlers_idempotent : forall (s : State),
  let e1 := exec onEngineReady s in
  let a1 := exec onAssetReady s in
  returns onEngineReady e1 = true /\
  flags (exec onEngineReady e1) = flags e1 /\
  ui (exec onEngineReady e1) = ui e1 /\
  arReady e1 = true /\
  returns onAssetReady a1 = true /\
  flags (exec onAssetReady a1) = flags a1 /\
  ui (exec onAssetReady a1) = ui a1 /\
  modelReady a1 = true /\
  (let open := set_arReady true (set_modelReady true s) in
   revealed (exec onEngineReady open) = true /\
   revealed (exec onAssetReady open) = true).
Proof.
  intros [a m st d ov g tx v tr nc ns nt].
  destruct a, m; cbv; repeat split.
Qed.

(** ** The readiness gate *)

Lemma deliver_cons : forall g l s,
  deliver (g :: l) s = deliver l (step (signalEvent g) s).
Proof. reflexivity. Qed.

Lemma deliver_app : forall p q s, deliver (p ++ q) s = deliver q (deliver p s).
Proof. intros. unfold deliver. rewrite map_app. apply run_app. Qed.

(* One signal: the flag it sets, and the reveal it does or does not cause. *)
Lemma signal_step : forall g s,
  let s' := step (signalEvent g) s in
  reveals s' = reveals s + (if bothReady s' then 1 else 0) /\
  arReady s' = (arReady s || match g with SigEngine => true | SigAsset => false end) /\
  modelReady s' = (modelReady s || match g with SigAsset => true | SigEngine => false end) /\
  (bothReady s' = true ->
   overlayDisplay s' = "none" /\ guideDisplay s' = "block" /\ statusText s' = msgReveal).
Proof.
  intros g [a m st d ov gd tx v tr nc ns nt].
  destruct g, a, m; unfold reveals, statusCount, bothReady; simpl;
    repeat split; try discriminate; lia.
Qed.

Lemma reveals_mono : forall l s, reveals s <= reveals (deliver l s).
Proof.
  induction l as [|g l IH]; intros s; [apply Nat.le_refl|].
  rewrite deliver_cons.
  destruct (signal_step g s) as (H & _).
  specialize (IH (step (signalEvent g) s)). lia.
Qed.

Lemma deliver_flags : forall l s,
  (arReady (deliver l s) = true <-> arReady s = true \/ In SigEngine l) /\
  (modelReady (deliver l s) = true <-> modelReady s = true \/ In SigAsset l).
Proof.
  induction l as [|g l IH]; intros s.
  - cbn. tauto.
  - rewrite deliver_cons.
    destruct (IH (step (signalEvent g) s)) as (Ha & Hm).
    destruct (signal_step g s) as (_ & Ea & Em & _).
    rewrite Ha, Hm, Ea, Em, !orb_true_iff. cbn [In].
    destruct g; split; intuition (discriminate || auto).
Qed.

Lemma bothReady_iff : forall s,
  bothReady s = true <-> arReady s = true /\ modelReady s = true.
Proof. intros s. unfold bothReady. apply andb_true_iff. Qed.

(* Both flags true after some prefix is both flags true at the end. *)
Lemma bothReady_prefix : forall l s,
  (exists p q, l = p ++ q /\ bothReady (deliver p s) = true) <->
  bothReady (deliver l s) = true.
Proof.
  intros l s. split.
  - intros (p & q & -> & H). rewrite deliver_app.
    apply bothReady_iff in H. destruct H as (Ha & Hm).
    apply bothReady_iff.
    destruct (deliver_flags q (deliver p s)) as (Ka & Km).
    split; [apply Ka | apply Km]; auto.
  - intros H. exists l, []. rewrite app_nil_r. auto.
Qed.

Lemma reveal_fires_iff : forall l s,
  bothReady s = false ->
  (reveals s < reveals (deliver l s) <-> bothReady (deliver l s) = true).
Proof.
  induction l as [|g l IH]; intros s Hs.
  - cbn. rewrite Hs. split; [lia | discriminate].
  - rewrite deliver_cons.
    destruct (signal_step g s) as (Hr & _).
    pose proof (reveals_mono l (step (signalEvent g) s)) as Hm.
    destruct (bothReady (step (signalEvent g) s)) eqn:Hb.
    + split; [intros _ | lia].
      apply bothReady_prefix. exists [], l. auto.
    + rewrite <- (IH _ Hb). lia.
Qed.

Lemma deliver_revealed : forall l s,
  l <> [] -> bothReady (deliver l s) = true ->
  overlayDisplay (deliver l s) = "none" /\
  guideDisplay (deliver l s) = "block" /\
  statusText (deliver l s) = msgReveal.
Proof.
  induction l as [|g l IH]; intros s Hne Hb; [congruence|].
  rewrite deliver_cons in *.
  destruct l as [|g' l'].
  - cbn in *. now apply signal_step.
  - apply IH; [discriminate | assumption].
Qed.

(* While the gate is closed a signal leaves overlay and guide alone; the
   only status it can show is that of the engine. *)
Lemma signal_step_closed : forall g s,
  bothReady (step (signalEvent g) s) = false ->
  overlayDisplay (step (signalEvent g) s) = overlayDisplay s /\
  guideDisplay (step (signalEvent g) s) = guideDisplay s /\
  (statusText (step (signalEvent g) s) = statusText s \/
   statusText (step (signalEvent g) s) = msgEngineReady).
Proof.
  intros g [a m st d ov gd tx v tr nc ns nt].
  destruct g, a, m; unfold bothReady; simpl; intros H;
    try discriminate H; auto.
Qed.

Lemma deliver_closed : forall l s,
  bothReady (deliver l s) = false ->
  overlayDisplay (deliver l s) = overlayDisplay s /\
  guideDisplay (deliver l s) = guideDisplay s /\
  reveals (deliver l s) = reveals s /\
  (statusText (deliver l s) = statusText s \/
   statusText (deliver l s) = msgEngineReady).
Proof.
  induction l as [|g l IH]; intros s H; [cbn; auto|].
  rewrite deliver_cons in *.
  destruct (IH _ H) as (I1 & I2 & I3 & I4).
  assert (B : bothReady (step (signalEvent g) s) = false).
  { destruct (bothReady (step (signalEvent g) s)) eqn:B; [|reflexivity].
    assert (T : bothReady (deliver l (step (signalEvent g) s)) = true).
    { apply bothReady_prefix. exists [], l. auto. }
    congruence. }
  destruct (signal_step_closed g s B) as (S1 & S2 & S3).
  destruct (signal_step g s) as (Sr & _). rewrite B in Sr.
  repeat split; try congruence; try lia.
  destruct I4 as [I4|I4]; [|auto].
  destruct S3 as [S3|S3]; [left|right]; congruence.
Qed.

(** C1: over any sequence of 'arReady' and 'model-loaded' signals delivered
    to a page whose gate is still closed, checkHideOverlay takes its reveal
    branch at least once if and only if both flags are true after some part
    of the sequence; that is the case exactly when each flag is set already
    or its signal occurs in the sequence, so the order of the signals does
    not matter.  The page follows: once the reveal has fired the sequence
    ends with the overlay hidden, the guide shown and the ready status; and
    at every point of the sequence at which the flags are not both true,
    overlay and guide are as they were at the start, no ready status has
    been logged, and the status line shows what it showed at the start or
    the status of the engine. *)
Theorem reveal_iff_both_ready : forall (sigs : list Signal) (s : State),
  bothReady s = false ->
  (reveals s < reveals (deliver sigs s) <->
     exists p q, sigs = p ++ q /\ bothReady (deliver p s) = true) /\
  (reveals s < reveals (deliver sigs s) <->
     (arReady s = true \/ In SigEngine sigs) /\
     (modelReady s = true \/ In SigAsset sigs)) /\
  (forall sigs', Permutation sigs sigs' ->
     (reveals s < reveals (deliver sigs s) <->
      reveals s < reveals (deliver sigs' s))) /\
  (reveals s < reveals (deliver sigs s) ->
     overlayDisplay (deliver sigs s) = "none" /\
     guideDisplay (deliver sigs s) = "block" /\
     statusText (deliver sigs s) = msgReveal) /\
  (forall p q, sigs = p ++ q -> bothReady (deliver p s) = false ->
     overlayDisplay (deliver p s) = overlayDisplay s /\
     guideDisplay (deliver p s) = guideDisplay s /\
     reveals (deliver p s) = reveals s /\
     (statusText (deliver p s) = statusText s \/
      statusText (deliver p s) = msgEngineReady)) /\
  (~ reveals s < reveals (deliver sigs s) ->
     overlayDisplay (deliver sigs s) = overlayDisplay s /\
     guideDisplay (deliver sigs s) = guideDisplay s /\
     reveals (deliver sigs s) = reveals s).
Proof.
  intros sigs s Hs.
  assert (Hin : forall l, reveals s < reveals (deliver l s) <->
                  (arReady s = true \/ In SigEngine l) /\
                  (modelReady s = true \/ In SigAsset l)).
  { intros l. rewrite (reveal_fires_iff l s Hs), bothReady_iff.
    destruct (deliver_flags l s) as (Ha & Hm). rewrite Ha, Hm. tauto. }
  split; [|split; [|split; [|split; [|split]]]].
  - rewrite bothReady_prefix. apply reveal_fires_iff, Hs.
  - apply Hin.
  - intros sigs' HP. rewrite !Hin.
    assert (Hx : forall x : Signal, In x sigs <-> In x sigs').
    { intros x. split; apply Permutation_in; auto using Permutation_sym. }
    rewrite !Hx. tauto.
  - intros Hf. apply deliver_revealed.
    + intros ->. cbn in Hf. lia.
    + now apply reveal_fires_iff.
  - intros p q _ Hp. apply deliver_closed, Hp.
  - intros Hn.
    assert (B : bothReady (deliver sigs s) = false).
    { destruct (bothReady (deliver sigs s)) eqn:B; [|reflexivity].
      exfalso. apply Hn. now apply reveal_fires_iff. }
    destruct (deliver_closed sigs s B) as (D1 & D2 & D3 & _). auto.
Qed.

Lemma reveal_iff_both_ready_witness :
  bothReady pageLoaded = false /\
  reveals pageLoaded < reveals (deliver [SigAsset; SigEngine] pageLoaded) /\
  ~ reveals pageLoaded < reveals (deliver [SigAsset; SigAsset] pageLoaded) /\
  overlayDisplay (deliver [SigAsset] pageLoaded) = "flex".
Proof.
  pose proof (reveal_iff_both_ready [SigAsset; SigEngine] pageLoaded eq_refl)
    as (_ & H1 & _ & _ & H5 & _).
  pose proof (reveal_iff_both_ready [SigAsset; SigAsset] pageLoaded eq_refl)
    as (_ & H2 & _).
  split; [reflexivity|split; [|split]].
  - apply H1. cbn. auto.
  - intros H. apply H2 in H. cbn in H.
    destruct H as ([H|[H|[H|[]]]] & _); discriminate.
  - exact (proj1 (H5 [SigAsset] [SigEngine] eq_refl eq_refl)).
Defined.

(** ** Starting the engine *)

Ltac count_starts :=
  unfold engineStarts; simpl;
  rewrite ?filter_app, ?stopped_no_start; simpl.

(* The guard of startAR: a call when arStarted is true does nothing. *)
Lemma startAR_started : forall h s,
  arStarted s = true -> startAR h s = Ok Finished s.
Proof.
  intros h s H. unfold startAR, bind, gets. rewrite H. reflexivity.
Qed.

(* A call when arStarted is false sets it and calls arSystem.start() if
   the lookup gives the system; it leaves by an exception only if the
   lookup throws. *)
Lemma startAR_fresh : forall h s,
  arStarted s = false ->
  returns (startAR h) s =
    match systemLookup h with LookupThrows _ => false | _ => true end /\
  arStarted (exec (startAR h) s) = true /\
  engineStarts (exec (startAR h) s) = engineStarts s + Nat.b2n (arSystem h).
Proof.
  intros [md gc sys sc] [a m st d ov g tx v tr nc ns nt] H.
  cbn in H. subst st.
  unfold arSystem.
  unfold_script; split_on_tests; count_starts; repeat split; lia.
Qed.

(* Only a task that sets arStarted calls arSystem.start(), and once. *)
Lemma step_engineStarts : forall e s,
  engineStarts (step e s) = engineStarts s \/
  (arStarted s = false /\ arStarted (step e s) = true /\
   engineStarts (step e s) = S (engineStarts s)).
Proof.
  intros e s. symbolic_step e s; count_starts; auto.
Qed.

Lemma run_started : forall es s,
  arStarted s = true ->
  arStarted (run es s) = true /\ engineStarts (run es s) = engineStarts s.
Proof.
  induction es as [|e es IH]; intros s H; [auto|].
  rewrite run_cons.
  assert (H1 : arStarted (step e s) = true).
  { destruct (step_flags_le e s) as (_ & _ & L). rewrite H in L. exact L. }
  destruct (IH _ H1) as (K1 & K2). split; [exact K1|].
  rewrite K2.
  destruct (step_engineStarts e s) as [E|(F & _)]; congruence.
Qed.

Lemma run_engineStarts : forall es s,
  engineStarts (run es s) <= engineStarts s + 1.
Proof.
  induction es as [|e es IH]; intros s; [cbn; lia|].
  rewrite run_cons.
  destruct (step_engineStarts e s) as [E|(_ & T & E)].
  - specialize (IH (step e s)). lia.
  - destruct (run_started es _ T) as (_ & K). lia.
Qed.

(* Until arStarted is set, arSystem.start() has not been called. *)
Lemma run_not_started : forall es s,
  engineStarts s = 0 -> arStarted (run es s) = false ->
  engineStarts (run es s) = 0.
Proof.
  induction es as [|e es IH]; intros s H0 H; [exact H0|].
  rewrite run_cons in *.
  destruct (step_engineStarts e s) as [E|(_ & T & _)].
  - apply IH; congruence.
  - destruct (run_started es _ T) as (K & _). congruence.
Qed.

Lemma startAR_calls_started : forall hs s,
  arStarted s = true -> startAR_calls hs s = s.
Proof.
  induction hs as [|h hs IH]; intros s H; [reflexivity|].
  change (startAR_calls (h :: hs) s) with (startAR_calls hs (exec (startAR h) s)).
  unfold exec. rewrite (startAR_started h s H). apply IH, H.
Qed.

(** C2, as the code has it: from a state in which arStarted is false, any
    number of successive calls of startAR call arSystem.start() once if the
    AR system is there at the first call and not at all if it is not; every
    call after the first returns at the arStarted guard and changes nothing;
    and over any schedule of clicks, settlements and other events
    arSystem.start() is called at most once. *)
Theorem engine_started_at_most_once :
  forall (h : Host) (hs : list Host) (es : list Event) (s : State),
  arStarted s = false ->
  engineStarts (startAR_calls (h :: hs) s) = engineStarts s + Nat.b2n (arSystem h) /\
  startAR_calls (h :: hs) s = exec (startAR h) s /\
  (forall h' : Host,
     startAR h' (startAR_calls (h :: hs) s) = Ok Finished (startAR_calls (h :: hs) s)) /\
  engineStarts (run es s) <= engineStarts s + 1.
Proof.
  intros h hs es s H.
  destruct (startAR_fresh h s H) as (_ & T & E).
  assert (C : startAR_calls (h :: hs) s = exec (startAR h) s).
  { change (startAR_calls (h :: hs) s) with (startAR_calls hs (exec (startAR h) s)).
    apply startAR_calls_started, T. }
  rewrite C. repeat split.
  - exact E.
  - intros h'. apply startAR_started, T.
  - apply run_engineStarts.
Qed.

Lemma engine_started_at_most_once_witness :
  arStarted pageLoaded = false /\
  engineStarts (startAR_calls [hostReady; hostReady; hostReady] pageLoaded) = 1.
Proof.
  split; [reflexivity|].
  exact (proj1 (engine_started_at_most_once hostReady [hostReady; hostReady] []
                  pageLoaded eq_refl)).
Defined.

(** C2 as stated fails: two calls of startAR on a page whose scene has no
    'mindar-image-system' never call arSystem.start(), whether startAR is
    called directly or reached through two clicks on the start button. *)
Lemma two_calls_no_engine_start :
  2 <= List.length [hostNoSystem; hostNoSystem] /\
  engineStarts (startAR_calls [hostNoSystem; hostNoSystem] pageLoaded) = 0 /\
  engineStarts (startAR_calls [hostNoSystem; hostNoSystem] pageLoaded) <> 1 /\
  engineStarts
    (run [EvStartClick hostNoSystem; EvCameraSettled (Fulfilled 1) hostNoSystem;
          EvStartClick hostNoSystem; EvCameraSettled (Fulfilled 1) hostNoSystem]
       pageLoaded) = 0.
Proof.
  repeat split; try (cbn; lia); vm_compute; congruence.
Qed.

(** C10: the claim fails where the lookup of line 46 itself throws, which it
    does when the scene has no systems object.  The lookup is outside the
    try of startAR, so with arStarted false the call sets arStarted, logs
    'Starting AR engine' and then leaves by the TypeError: it does not
    return normally and shows no error status, the status line stays at
    'Starting AR engine'.  arSystem.start() is not called, then or later,
    and every later call of startAR returns at the guard. *)
Theorem startAR_lookup_throws :
  forall (h h' : Host) (e : string) (s : State) (post : list Event),
  systemLookup h = LookupThrows e -> arStarted s = false ->
  let s1 := exec (startAR h) s in
  startAR h s = Thrown e s1 /\
  returns (startAR h) s = false /\
  arStarted s1 = true /\
  statusText s1 = msgStarting /\
  hd_error (trace s1) = Some (ConsoleLog ["[EnterpriseAR]"; msgStarting]) /\
  statusCount msgNoSystem s1 = statusCount msgNoSystem s /\
  engineStarts s1 = engineStarts s /\
  engineStarts (run post s1) = engineStarts s /\
  startAR h' (run post s1) = Ok Finished (run post s1).
Proof.
  intros h h' e s post Hthrow Hst s1.
  assert (T : arStarted s1 = true) by (apply startAR_fresh, Hst).
  destruct (run_started post s1 T) as (K1 & K2).
  assert (B : startAR h s = Thrown e s1 /\ statusText s1 = msgStarting /\
              hd_error (trace s1) = Some (ConsoleLog ["[EnterpriseAR]"; msgStarting]) /\
              statusCount msgNoSystem s1 = statusCount msgNoSystem s /\
              engineStarts s1 = engineStarts s).
  { subst s1. clear T K1 K2.
    destruct h as [md gc sys sc], s as [a m st d ov g tx v tr nc ns nt].
    cbn in Hthrow, Hst. subst sys st. repeat split. }
  destruct B as (B1 & B2 & B3 & B4 & B5).
  repeat split; auto.
  - unfold returns. rewrite B1. reflexivity.
  - congruence.
  - apply startAR_started, K1.
Qed.

Lemma startAR_lookup_throws_witness :
  systemLookup hostNoScene =
    LookupThrows "TypeError: Cannot read properties of undefined" /\
  arStarted pageLoaded = false /\
  returns (startAR hostNoScene) pageLoaded = false /\
  statusText (exec (startAR hostNoScene) pageLoaded) = msgStarting /\
  statusCount msgNoSystem (exec (startAR hostNoScene) pageLoaded) = 0.
Proof.
  pose proof (startAR_lookup_throws hostNoScene hostReady _ pageLoaded []
                eq_refl eq_refl) as H.
  cbv zeta in H. destruct H as (_ & H2 & _ & H4 & _ & H6 & _).
  split; [reflexivity|]. split; [reflexivity|].
  split; [exact H2|]. split; [exact H4 | exact H6].
Defined.

(* The catch branch of startAR, run when the promise of start() rejects. *)
Lemma startAR_resume_rejected : forall err s,
  returns (startAR_resume (Rejected err)) s = true /\
  statusText (exec (startAR_resume (Rejected err)) s) = msgStartFailed /\
  flags (exec (startAR_resume (Rejected err)) s) = flags s /\
  engineStarts (exec (startAR_resume (Rejected err)) s) = engineStarts s.
Proof.
  intros err [a m st d ov g tx v tr nc ns nt]. repeat split.
Qed.

(** C3: when arSystem.start() fails, by throwing at the call or by
    rejecting its promise later, startAR has called it once, returns
    normally, shows the failure status and leaves arStarted true; so
    whatever events follow, every later call of startAR returns at the guard
    and arSystem.start() is not called again. *)
Theorem start_failure_is_final :
  forall (h h' : Host) (err : string) (s : State) (mid post : list Event),
  arSystem h = true -> arStarted s = false ->
  let s1 := exec (startAR h) s in
  let s2 := match startCall h with
            | ThrowsSync _ => s1
            | Returns => step (EvStartSettled (Rejected err)) s1
            end in
  let s3 := exec (startAR_resume (Rejected err)) (run mid s1) in
  returns (startAR h) s = true /\
  engineStarts s1 = S (engineStarts s) /\
  statusText s2 = msgStartFailed /\
  hd_error (trace s2) = Some (ConsoleLog ["[EnterpriseAR]"; msgStartFailed]) /\
  arStarted s2 = true /\
  engineStarts (run post s2) = S (engineStarts s) /\
  startAR h' (run post s2) = Ok Finished (run post s2) /\
  returns (startAR_resume (Rejected err)) (run mid s1) = true /\
  statusText s3 = msgStartFailed /\
  arStarted s3 = true /\
  engineStarts (run post s3) = S (engineStarts s) /\
  startAR h' (run post s3) = Ok Finished (run post s3).
Proof.
  intros h h' err s mid post Hsys Hst s1 s2 s3.
  destruct (startAR_fresh h s Hst) as (R & T & E).
  assert (P : systemLookup h = SystemPresent).
  { unfold arSystem in Hsys. destruct (systemLookup h); congruence. }
  rewrite P in R.
  rewrite Hsys in E. cbn in E. rewrite Nat.add_1_r in E. fold s1 in T, E.
  assert (H2 : statusText s2 = msgStartFailed /\
               hd_error (trace s2) = Some (ConsoleLog ["[EnterpriseAR]"; msgStartFailed]) /\
               arStarted s2 = true /\ engineStarts s2 = S (engineStarts s)).
  { subst s1 s2. clear T.
    destruct h as [md gc sys sc], s as [a m st d ov g tx v tr nc ns nt].
    cbn in P, Hst. subst sys st. destruct sc; repeat split; exact E. }
  destruct H2 as (X1 & X2 & X3 & X4).
  destruct (run_started post s2 X3) as (P1 & P2).
  destruct (run_started mid s1 T) as (M1 & M2).
  destruct (startAR_resume_rejected err (run mid s1)) as (Q1 & Q2 & Q3 & Q4).
  fold s3 in Q2, Q3, Q4.
  assert (T3 : arStarted s3 = true).
  { exact M1. }
  destruct (run_started post s3 T3) as (P3 & P4).
  repeat split; auto using startAR_started; congruence.
Qed.

Lemma start_failure_is_final_witness :
  arSystem hostStartThrows = true /\ arStarted pageLoaded = false /\
  statusText (exec (startAR hostStartThrows) pageLoaded) = msgStartFailed /\
  engineStarts
    (run [EvStartClick hostReady; EvCameraSettled (Rejected "NotAllowedError") hostReady]
       (step (EvStartSettled (Rejected "boot failed"))
          (exec (startAR hostReady) pageLoaded))) = 1.
Proof.
  split; [reflexivity|split; [reflexivity|split]].
  - pose proof (start_failure_is_final hostStartThrows hostReady "" pageLoaded [] []
                  eq_refl eq_refl) as H.
    cbv zeta in H. exact (proj1 (proj2 (proj2 H))).
  - pose proof (start_failure_is_final hostReady hostReady "boot failed" pageLoaded []
                  [EvStartClick hostReady;
                   EvCameraSettled (Rejected "NotAllowedError") hostReady]
                  eq_refl eq_refl) as H.
    cbv zeta in H. exact (proj1 (proj2 (proj2 (proj2 (proj2 (proj2 H)))))).
Defined.

(** ** The camera warm-up *)

Ltac count_effects :=
  unfold engineStarts, statusCount; simpl;
  rewrite ?filter_app, ?stopped_no_start, ?stopped_no_status; simpl.

(** C4: warmCameraPermission is best effort.  Whatever the camera does (no
    getUserMedia at all, a call that throws, a promise that is fulfilled or
    rejected) both parts of warmCameraPermission return normally and change
    neither the flags nor the page.  A failure, thrown by the call or
    delivered as a rejection, is written to the console with console.warn
    and nothing else is done about it; the only other traces of the warm-up
    are the request itself, the stopping of the tracks and the line of
    success.  The click handler then goes on to startAR with the same
    outcome whatever the camera did: with arStarted false startAR runs its
    body once, calls arSystem.start() if the lookup gives the AR system, and
    the handler leaves by an exception only if startAR does, that is only if
    the lookup of the system throws. *)
Theorem camera_warmup_best_effort :
  forall (h : Host) (o : Settled nat) (e : string) (s : State),
  arStarted s = false ->
  let s' := run [EvStartClick h; EvCameraSettled o h] s in
  returns (warmCameraPermission h) s = true /\
  returns (warmCameraPermission_resume o) s = true /\
  flags (exec (warmCameraPermission h) s) = flags s /\
  ui (exec (warmCameraPermission h) s) = ui s /\
  flags (exec (warmCameraPermission_resume o) s) = flags s /\
  ui (exec (warmCameraPermission_resume o) s) = ui s /\
  exec (warmCameraPermission_resume (Rejected e)) s =
    exec (console_warn ["warmCameraPermission failed:"; e]) s /\
  exec (warmCameraPermission h) s =
    (if mediaDevices h then
       match getUserMediaCall h with
       | ThrowsSync x =>
           set_trace (ConsoleWarn ["warmCameraPermission failed:"; x]
                        :: GetUserMedia :: trace s) s
       | Returns =>
           set_awaitingCamera (S (awaitingCamera s))
             (set_trace (GetUserMedia :: trace s) s)
       end
     else s) /\
  exec (warmCameraPermission_resume o) s =
    match o with
    | Rejected x =>
        set_trace (ConsoleWarn ["warmCameraPermission failed:"; x] :: trace s) s
    | Fulfilled n =>
        set_trace (ConsoleLog ["Camera permission warmed"]
                     :: stopped 0 n ++ trace s) s
    end /\
  onStartClick_resume o h s = startAR h (exec (warmCameraPermission_resume o) s) /\
  returns (onStartClick_resume o h) s =
    match systemLookup h with LookupThrows _ => false | _ => true end /\
  returns (onStartClick h) s =
    match systemLookup h with LookupThrows _ => suspendsOnCamera h | _ => true end /\
  arStarted s' = true /\
  statusCount msgStarting s' = S (statusCount msgStarting s) /\
  engineStarts s' = engineStarts s + Nat.b2n (arSystem h).
Proof.
  intros [md gc sys sc] o e [a m st d ov g tx v tr nc ns nt] H s'.
  cbn in H. subst st. subst s'.
  unfold run, flags, ui, arSystem, suspendsOnCamera. unfold_script. split_on_tests;
    count_effects; repeat split; lia.
Qed.

Lemma camera_warmup_best_effort_witness :
  arStarted pageLoaded = false /\
  engineStarts
    (run [EvStartClick hostReady; EvCameraSettled (Rejected "NotAllowedError") hostReady]
       pageLoaded) = 1 /\
  trace (exec (warmCameraPermission hostCameraThrows) pageLoaded) =
    [ConsoleWarn ["warmCameraPermission failed:"; "TypeError: getUserMedia"];
     GetUserMedia].
Proof.
  split; [reflexivity|].
  pose proof (camera_warmup_best_effort hostReady (Rejected "NotAllowedError") ""
                pageLoaded eq_refl) as H.
  pose proof (camera_warmup_best_effort hostCameraThrows (Rejected "") ""
                pageLoaded eq_refl) as K.
  cbv zeta in H, K. split.
  - repeat (apply proj2 in H). exact H.
  - do 7 (apply proj2 in K). apply proj1 in K.
    exact (f_equal trace K).
Defined.

(** * Further properties of the script *)

(** ** Counting external calls over a schedule *)

Lemma stopped_filter_nil : forall (p : Effect -> bool) n i,
  (forall k, p (TrackStop k) = false) -> filter p (stopped i n) = [].
Proof.
  intros p n i Hp. unfold stopped.
  induction (seq i n) as [|a l IH]; [reflexivity|].
  cbn [map rev]. rewrite filter_app, IH. cbn. rewrite Hp. reflexivity.
Qed.

(* A count that each task raises by one or leaves alone, by the kind of
   the event alone, is over a schedule the number of events of that kind. *)
Lemma run_count : forall (f : State -> nat) (q : Event -> bool),
  (forall e s, f (step e s) = f s + Nat.b2n (q e)) ->
  forall es s, f (run es s) = f s + List.length (filter q es).
Proof.
  intros f q Hstep. induction es as [|e es IH]; intros s.
  - cbn. lia.
  - rewrite run_cons, IH, Hstep. cbn [filter].
    destruct (q e); cbn; lia.
Qed.

Ltac count_calls :=
  unfold effectCount, cameraRequests; simpl;
  rewrite ?filter_app, ?stopped_filter_nil by reflexivity; simpl.

Ltac count_status :=
  unfold engineStarts, statusCount; simpl;
  rewrite ?filter_app, ?stopped_no_start, ?stopped_no_status; simpl.

Lemma step_cameraRequests : forall e s,
  cameraRequests (step e s) = cameraRequests s + Nat.b2n (isClickWithCamera e).
Proof.
  intros e s. symbolic_step e s; count_calls; lia.
Qed.

Lemma step_alerts : forall e s,
  effectCount isAlert (step e s) = effectCount isAlert s + Nat.b2n (isArErrorEv e).
Proof.
  intros e s. symbolic_step e s; count_calls; lia.
Qed.

Lemma step_windowOpens : forall e s,
  effectCount isWindowOpen (step e s) =
  effectCount isWindowOpen s + Nat.b2n (isPreviewEv e).
Proof.
  intros e s. symbolic_step e s; count_calls; lia.
Qed.

Lemma step_setTimeouts : forall e s,
  effectCount isSetTimeout (step e s) =
  effectCount isSetTimeout s + Nat.b2n (isLoadEv e).
Proof.
  intros e s. symbolic_step e s; count_calls; lia.
Qed.

(** X1: every click on the start button calls getUserMedia once if the browser
    has it, also when the engine has been started already; nothing else
    calls it. *)
Theorem camera_requested_per_click : forall (es : list Event) (s : State),
  cameraRequests (run es s) =
  cameraRequests s + List.length (filter isClickWithCamera es).
Proof.
  apply run_count, step_cameraRequests.
Qed.

(** X2: over any schedule alert is raised once per 'arError' event,
    window.open is called once per click on the preview button and
    setTimeout once per 'load' event, and by nothing else: in particular a
    failed arSystem.start() raises no alert. *)
Theorem calls_per_event : forall (es : list Event) (s : State),
  effectCount isAlert (run es s) =
    effectCount isAlert s + List.length (filter isArErrorEv es) /\
  effectCount isWindowOpen (run es s) =
    effectCount isWindowOpen s + List.length (filter isPreviewEv es) /\
  effectCount isSetTimeout (run es s) =
    effectCount isSetTimeout s + List.length (filter isLoadEv es).
Proof.
  intros es s. repeat split.
  - apply (run_count (effectCount isAlert)), step_alerts.
  - apply (run_count (effectCount isWindowOpen)), step_windowOpens.
  - apply (run_count (effectCount isSetTimeout)), step_setTimeouts.
Qed.

(** ** Who writes what *)

Lemma step_ready_flags : forall e s,
  arReady (step e s) = (arReady s || isArReadyEv e) /\
  modelReady (step e s) = (modelReady s || isModelLoadedEv e).
Proof.
  intros e s. symbolic_step e s; rewrite ?orb_false_r, ?orb_true_r; auto.
Qed.

(** X3: arReady is written by the 'arReady' listener alone and modelReady by
    the 'model-loaded' listener alone: after any schedule each is true
    exactly if it was true before or its event was delivered.  Starting the
    engine, its failure and 'arError' do not touch them. *)
Theorem ready_flags_follow_events : forall (es : list Event) (s : State),
  arReady (run es s) = (arReady s || existsb isArReadyEv es) /\
  modelReady (run es s) = (modelReady s || existsb isModelLoadedEv es).
Proof.
  induction es as [|e es IH]; intros s.
  - cbn. rewrite !orb_false_r. auto.
  - rewrite run_cons. destruct (IH (step e s)) as (Ha & Hm).
    destruct (step_ready_flags e s) as (Ea & Em).
    rewrite Ha, Hm, Ea, Em. cbn [existsb]. rewrite !orb_assoc. auto.
Qed.

(* The overlay is what the page gave it until both flags are true, and
   'none' from then on. *)
Lemma step_overlay : forall ov0 e s,
  overlayDisplay s = (if bothReady s then "none" else ov0) ->
  overlayDisplay (step e s) = (if bothReady (step e s) then "none" else ov0).
Proof.
  intros ov0 e s. unfold bothReady.
  symbolic_step e s; auto;
    repeat match goal with
           | |- context [if ?x && _ then _ else _] => is_var x; destruct x; simpl
           | |- context [if ?x then _ else _] => is_var x; destruct x; simpl
           end; auto.
Qed.

(** X4: over any schedule of events from the start of the session, the overlay
    is hidden exactly when arReady and modelReady are both true: until then
    overlay.style.display is what the page gave it, and from then on it is
    'none' and nothing shows the overlay again. *)
Theorem overlay_follows_gate :
  forall (es : list Event) (d : bool) (ov g tx v : string),
  let s := run es (initState d ov g tx v) in
  overlayDisplay s = (if bothReady s then "none" else ov).
Proof.
  intros es d ov g tx v.
  assert (H : forall es s,
             overlayDisplay s = (if bothReady s then "none" else ov) ->
             overlayDisplay (run es s) = (if bothReady (run es s) then "none" else ov)).
  { clear es. induction es as [|e es IH]; intros s Hs; [exact Hs|].
    rewrite run_cons. apply IH, step_overlay, Hs. }
  apply H. reflexivity.
Qed.

Lemma lastStatus_stopped : forall n i tr,
  lastStatus (stopped i n ++ tr) = lastStatus tr.
Proof.
  intros n i tr. unfold stopped.
  induction (seq i n) as [|a l IH] in tr |- *; [reflexivity|].
  cbn [map rev]. rewrite <- app_assoc. rewrite IH. reflexivity.
Qed.

Lemma step_lastStatus : forall tx0 e s,
  statusText s = match lastStatus (trace s) with Some t => t | None => tx0 end ->
  statusText (step e s) =
    match lastStatus (trace (step e s)) with Some t => t | None => tx0 end.
Proof.
  intros tx0 e s.
  symbolic_step e s; rewrite ?lastStatus_stopped; auto.
Qed.

(** X5: the status line and the console agree: after any schedule of events
    statusEl.textContent is the text of the last message logged with the
    '[EnterpriseAR]' prefix, or what the page gave it if none was logged.
    logStatus is the only writer of the status line. *)
Theorem status_is_last_logged :
  forall (es : list Event) (d : bool) (ov g tx v : string),
  let s := run es (initState d ov g tx v) in
  statusText s = match lastStatus (trace s) with Some t => t | None => tx end.
Proof.
  intros es d ov g tx v.
  assert (H : forall es s,
             statusText s = match lastStatus (trace s) with Some t => t | None => tx end ->
             statusText (run es s) =
               match lastStatus (trace (run es s)) with Some t => t | None => tx end).
  { clear es. induction es as [|e es IH]; intros s Hs; [exact Hs|].
    rewrite run_cons. apply IH, step_lastStatus, Hs. }
  apply H. reflexivity.
Qed.

(** ** The start button and the start flow *)

(* startAR runs only under a click that has disabled the button. *)
Lemma step_button : forall e s,
  Bool.le (arStarted s || (0 <? awaitingCamera s)%nat) (startBtnDisabled s) ->
  Bool.le (startBtnDisabled s) (startBtnDisabled (step e s)) /\
  Bool.le (arStarted (step e s) || (0 <? awaitingCamera (step e s))%nat)
          (startBtnDisabled (step e s)).
Proof.
  intros e s.
  symbolic_step e s;
    repeat match goal with
           | |- context [Bool.le ?x _] => is_var x; destruct x; simpl
           | |- context [Bool.le (?x || _) _] => is_var x; destruct x; simpl
           | |- context [(0 <? ?x)%nat] => is_var x; destruct x; simpl
           end; auto; try discriminate.
Qed.

Lemma run_button : forall es s,
  Bool.le (arStarted s || (0 <? awaitingCamera s)%nat) (startBtnDisabled s) ->
  Bool.le (startBtnDisabled s) (startBtnDisabled (run es s)) /\
  Bool.le (arStarted (run es s) || (0 <? awaitingCamera (run es s))%nat)
          (startBtnDisabled (run es s)).
Proof.
  induction es as [|e es IH]; intros s H.
  - cbn. split; [apply le_refl_bool | exact H].
  - rewrite run_cons. destruct (step_button e s H) as (H1 & H2).
    destruct (IH _ H2) as (K1 & K2).
    split; [eapply le_trans_bool; eauto | exact K2].
Qed.

Lemma click_disables : forall h s,
  startBtnDisabled (step (EvStartClick h) s) = true.
Proof.
  intros [md gc sys sc] [a m st d ov g tx v tr nc ns nt].
  unfold_script; split_on_tests; reflexivity.
Qed.

(** X6: the start button is single-fire: a click disables it and nothing in the
    script enables it again, whatever the camera and the engine answer; and
    in any session, whenever arStarted is true or a click waits for the
    camera, the button is disabled. *)
Theorem start_button_stays_disabled :
  forall (pre post : list Event) (h : Host) (d : bool) (ov g tx v : string),
  let s0 := initState d ov g tx v in
  startBtnDisabled (run (pre ++ EvStartClick h :: post) s0) = true /\
  Bool.le (arStarted (run pre s0) || (0 <? awaitingCamera (run pre s0))%nat)
          (startBtnDisabled (run pre s0)).
Proof.
  intros pre post h d ov g tx v s0.
  assert (I0 : Bool.le (arStarted s0 || (0 <? awaitingCamera s0)%nat) (startBtnDisabled s0))
    by exact I.
  destruct (run_button pre s0 I0) as (_ & I1).
  split; [|exact I1].
  rewrite run_app, run_cons.
  destruct (step_button (EvStartClick h) _ I1) as (_ & I2).
  destruct (run_button post _ I2) as (L & _).
  rewrite click_disables in L. exact L.
Qed.

(* The books of the start flow. *)
Lemma step_start_ledger : forall e s,
  statusCount msgStarting s = Nat.b2n (arStarted s) /\
  statusCount msgStartFailed s + awaitingStart s <= engineStarts s /\
  statusCount msgNoSystem s + engineStarts s <= Nat.b2n (arStarted s) ->
  statusCount msgStarting (step e s) = Nat.b2n (arStarted (step e s)) /\
  statusCount msgStartFailed (step e s) + awaitingStart (step e s)
    <= engineStarts (step e s) /\
  statusCount msgNoSystem (step e s) + engineStarts (step e s)
    <= Nat.b2n (arStarted (step e s)).
Proof.
  intros e s. symbolic_step e s; count_status; lia.
Qed.

(* What one call of startAR adds to the books. *)
Lemma startAR_ledger : forall h x,
  statusCount msgNoSystem (exec (startAR h) x) =
    statusCount msgNoSystem x +
    (if arStarted x then 0
     else match systemLookup h with SystemAbsent => 1 | _ => 0 end) /\
  engineStarts (exec (startAR h) x) =
    engineStarts x +
    (if arStarted x then 0
     else match systemLookup h with SystemPresent => 1 | _ => 0 end).
Proof.
  intros [md gc sys sc] [a m st d ov g tx v tr nc ns nt].
  unfold_script; split_on_tests; count_status; split; lia.
Qed.

(** X7: in any session the start flow logs 'Starting AR engine' exactly once if
    arStarted is true and never otherwise; the missing AR system is
    reported and arSystem.start() is called at most once between them,
    never both and neither twice; and 'AR start failed' is logged at most
    once, only for a call of arSystem.start() that is no longer pending.  A
    call of startAR with arStarted false reports the missing system exactly
    if the lookup gives undefined, calls arSystem.start() exactly if the
    lookup gives the system, and does neither if the lookup throws; a call
    with arStarted true does neither. *)
Theorem start_flow_ledger :
  forall (es : list Event) (d : bool) (ov g tx v : string) (h : Host) (x : State),
  let s := run es (initState d ov g tx v) in
  statusCount msgStarting s = Nat.b2n (arStarted s) /\
  statusCount msgStartFailed s + awaitingStart s <= engineStarts s /\
  statusCount msgNoSystem s + engineStarts s <= Nat.b2n (arStarted s) /\
  statusCount msgStartFailed s <= 1 /\
  statusCount msgNoSystem (exec (startAR h) x) =
    statusCount msgNoSystem x +
    (if arStarted x then 0
     else match systemLookup h with SystemAbsent => 1 | _ => 0 end) /\
  engineStarts (exec (startAR h) x) =
    engineStarts x +
    (if arStarted x then 0
     else match systemLookup h with SystemPresent => 1 | _ => 0 end).
Proof.
  intros es d ov g tx v h x.
  destruct (startAR_ledger h x) as (L1 & L2).
  assert (H : forall es s,
    statusCount msgStarting s = Nat.b2n (arStarted s) /\
    statusCount msgStartFailed s + awaitingStart s <= engineStarts s /\
    statusCount msgNoSystem s + engineStarts s <= Nat.b2n (arStarted s) ->
    statusCount msgStarting (run es s) = Nat.b2n (arStarted (run es s)) /\
    statusCount msgStartFailed (run es s) + awaitingStart (run es s)
      <= engineStarts (run es s) /\
    statusCount msgNoSystem (run es s) + engineStarts (run es s)
      <= Nat.b2n (arStarted (run es s))).
  { clear es. induction es as [|e es IH]; intros s Hs; [exact Hs|].
    rewrite run_cons. apply IH, step_start_ledger, Hs. }
  cbv zeta.
  destruct (H es (initState d ov g tx v)) as (H1 & H2 & H3).
  { cbn. repeat split; lia. }
  repeat split; auto.
  destruct (arStarted (run es (initState d ov g tx v))); cbn in H3; lia.
Qed.

(** X15: when the lookup of line 46 does not give the AR system at a call of
    startAR with arStarted false, because it gives undefined or because it
    throws, the call has set arStarted and has not called arSystem.start();
    whatever events follow, arSystem.start() is never called and every later
    call of startAR returns at the guard.  If the lookup gives undefined
    the call returns normally with the error status shown.  Over every
    session arSystem.start() is called at most once, and not before
    arStarted is set. *)
Theorem startAR_without_system :
  forall (h h' : Host) (s : State) (post : list Event),
  arSystem h = false -> arStarted s = false ->
  let s1 := exec (startAR h) s in
  arStarted s1 = true /\
  awaitingStart s1 = awaitingStart s /\
  engineStarts s1 = engineStarts s /\
  engineStarts (run post s1) = engineStarts s /\
  startAR h' (run post s1) = Ok Finished (run post s1) /\
  (systemLookup h = SystemAbsent ->
     startAR h s = Ok Finished s1 /\ statusText s1 = msgNoSystem) /\
  (forall (es : list Event) d ov g tx v,
     engineStarts (run es (initState d ov g tx v)) <= 1 /\
     Nat.b2n (arStarted (run es (initState d ov g tx v))) >=
       engineStarts (run es (initState d ov g tx v))).
Proof.
  intros h h' s post Hsys Hst s1.
  assert (T : arStarted s1 = true) by (apply startAR_fresh, Hst).
  assert (E : engineStarts s1 = engineStarts s).
  { unfold s1. destruct (startAR_fresh h s Hst) as (_ & _ & E).
    rewrite E, Hsys. cbn. lia. }
  destruct (run_started post s1 T) as (K1 & K2).
  assert (B : awaitingStart s1 = awaitingStart s /\
              (systemLookup h = SystemAbsent ->
               startAR h s = Ok Finished s1 /\ statusText s1 = msgNoSystem)).
  { subst s1. clear T E K1 K2.
    destruct h as [md gc sys sc], s as [a m st d ov g tx v tr nc ns nt].
    cbn in Hsys, Hst. subst st.
    destruct sys; try discriminate Hsys; split; try reflexivity;
      intros A; try discriminate A; split; reflexivity. }
  destruct B as (B1 & B2).
  split; [exact T|]. split; [exact B1|]. split; [exact E|].
  split; [congruence|]. split; [apply startAR_started, K1|].
  split; [exact B2|].
  intros es d ov g tx v. split.
  - apply (run_engineStarts es (initState d ov g tx v)).
  - destruct (arStarted (run es (initState d ov g tx v))) eqn:F.
    + apply (run_engineStarts es (initState d ov g tx v)).
    + rewrite (run_not_started es (initState d ov g tx v)); auto.
Qed.

Lemma startAR_without_system_witness :
  arSystem hostNoSystem = false /\ arSystem hostNoScene = false /\
  arStarted pageLoaded = false /\
  engineStarts
    (run [EvStartClick hostReady; EvCameraSettled (Fulfilled 1) hostReady;
          EvStartSettled (Fulfilled tt)]
       (exec (startAR hostNoSystem) pageLoaded)) = 0 /\
  engineStarts
    (run [EvStartClick hostReady; EvCameraSettled (Fulfilled 1) hostReady;
          EvStartSettled (Fulfilled tt)]
       (exec (startAR hostNoScene) pageLoaded)) = 0 /\
  statusText (exec (startAR hostNoSystem) pageLoaded) = msgNoSystem.
Proof.
  pose proof (startAR_without_system hostNoSystem hostReady pageLoaded
                [EvStartClick hostReady; EvCameraSettled (Fulfilled 1) hostReady;
                 EvStartSettled (Fulfilled tt)] eq_refl eq_refl) as H.
  pose proof (startAR_without_system hostNoScene hostReady pageLoaded
                [EvStartClick hostReady; EvCameraSettled (Fulfilled 1) hostReady;
                 EvStartSettled (Fulfilled tt)] eq_refl eq_refl) as K.
  cbv zeta in H, K.
  destruct H as (_ & _ & _ & H4 & _ & H6 & _).
  destruct K as (_ & _ & _ & K4 & _).
  split; [reflexivity|]. split; [reflexivity|]. split; [reflexivity|].
  split; [exact H4|]. split; [exact K4|].
  exact (proj2 (H6 eq_refl)).
Defined.

(** ** The stall hint, the reveal and the tracker *)

Lemma step_stall_ready : forall e s,
  arReady s = true ->
  statusCount msgStall (step e s) = statusCount msgStall s.
Proof.
  intros e s. symbolic_step e s; count_status; intros; congruence.
Qed.

(** X8: once arReady is true the waiting hint of the 8-second timer is never
    logged again, whatever timers are still pending and whatever else
    happens; in particular it cannot replace the ready status. *)
Theorem no_stall_hint_once_ready : forall (es : list Event) (s : State),
  arReady s = true ->
  statusCount msgStall (run es s) = statusCount msgStall s.
Proof.
  induction es as [|e es IH]; intros s H; [reflexivity|].
  rewrite run_cons, IH.
  - apply step_stall_ready, H.
  - destruct (step_flags_le e s) as (L & _). rewrite H in L. exact L.
Qed.

Lemma no_stall_hint_once_ready_witness :
  arReady (step EvArReady pageLoaded) = true /\
  statusCount msgStall
    (run [EvLoad; EvLoad; EvTimer; EvArError "camera"; EvTimer]
       (step EvArReady pageLoaded)) = 0.
Proof.
  split; [reflexivity|].
  exact (no_stall_hint_once_ready
           [EvLoad; EvLoad; EvTimer; EvArError "camera"; EvTimer]
           (step EvArReady pageLoaded) eq_refl).
Defined.

(** X9: the reveal is not one-shot: with both flags true, every further
    'arReady' or 'model-loaded' signal runs the reveal branch of
    checkHideOverlay again, so a sequence of n signals logs the ready status
    n more times. *)
Theorem reveal_repeats_when_open : forall (sigs : list Signal) (s : State),
  bothReady s = true ->
  reveals (deliver sigs s) = reveals s + List.length sigs /\
  bothReady (deliver sigs s) = true.
Proof.
  induction sigs as [|g l IH]; intros s H.
  - cbn. split; [lia | exact H].
  - rewrite deliver_cons.
    destruct (signal_step g s) as (Hr & Ha & Hm & _).
    assert (B : bothReady (step (signalEvent g) s) = true).
    { apply bothReady_iff in H. destruct H as (H1 & H2).
      apply bothReady_iff. rewrite Ha, Hm, H1, H2. auto. }
    destruct (IH _ B) as (K1 & K2). rewrite B in Hr.
    split; [cbn [List.length]; lia | exact K2].
Qed.

Lemma reveal_repeats_when_open_witness :
  bothReady (deliver [SigAsset; SigEngine] pageLoaded) = true /\
  reveals (deliver [SigEngine; SigEngine; SigAsset]
             (deliver [SigAsset; SigEngine] pageLoaded)) = 4.
Proof.
  split; [reflexivity|].
  exact (proj1 (reveal_repeats_when_open [SigEngine; SigEngine; SigAsset]
                  (deliver [SigAsset; SigEngine] pageLoaded) eq_refl)).
Defined.

(** X10: the ready listeners and the tracker listeners do not commute: with both
    flags true, a ready signal that arrives while the target is tracked
    shows the guide again and leaves the model visible, whereas the same two
    events in the other order leave the guide hidden. *)
Theorem late_signal_shows_guide_again : forall (g : Signal) (s : State),
  bothReady s = true ->
  let late := run [EvTargetFound; signalEvent g] s in
  let early := run [signalEvent g; EvTargetFound] s in
  guideDisplay late = "block" /\ modelVisible late = "true" /\
  guideDisplay early = "none" /\ modelVisible early = "true" /\
  flags late = flags early.
Proof.
  intros g [a m st d ov gd tx v tr nc ns nt] H.
  unfold bothReady in H. cbn in H. apply andb_true_iff in H.
  destruct H as (-> & ->). destruct g; cbn; repeat split.
Qed.

Lemma late_signal_shows_guide_again_witness :
  bothReady (deliver [SigAsset; SigEngine] pageLoaded) = true /\
  guideDisplay (run [EvTargetFound; EvModelLoaded]
                  (deliver [SigAsset; SigEngine] pageLoaded)) = "block".
Proof.
  split; [reflexivity|].
  exact (proj1 (late_signal_shows_guide_again SigAsset
                  (deliver [SigAsset; SigEngine] pageLoaded) eq_refl)).
Defined.

(** ** The camera stream and the preview button *)

Lemma stopped_filter_all : forall (p : Effect -> bool) n i,
  (forall k, p (TrackStop k) = true) -> filter p (stopped i n) = stopped i n.
Proof.
  intros p n i Hp. unfold stopped.
  induction (seq i n) as [|a l IH]; [reflexivity|].
  cbn [map rev]. rewrite filter_app, IH. cbn. rewrite Hp. reflexivity.
Qed.

(* Split a trace that ends in a known tail into what was put before it. *)
Ltac newer_than r :=
  match goal with
  | |- exists pre, ?l = pre ++ r /\ _ =>
      let rec go l acc :=
        lazymatch l with
        | r => exists (rev acc)
        | ?x :: ?l' => go l' constr:(x :: acc)
        end in
      go l constr:(@nil Effect)
  end.

(** X11: the warm-up releases the camera: when getUserMedia is fulfilled with a
    stream of n tracks, the click handler stops each of the n tracks once, in
    order, before anything else it does in that task, so before startAR and
    any call of arSystem.start(); a rejected request stops nothing. *)
Theorem camera_stream_released :
  forall (n k : nat) (e : string) (h : Host) (s : State),
  awaitingCamera s = S k ->
  let s' := step (EvCameraSettled (Fulfilled n) h) s in
  let r := step (EvCameraSettled (Rejected e) h) s in
  filter isTrackStop (trace s') = stopped 0 n ++ filter isTrackStop (trace s) /\
  awaitingCamera s' = k /\
  (exists pre, trace s' = pre ++ (stopped 0 n ++ trace s) /\
               filter isTrackStop pre = []) /\
  filter isTrackStop (trace r) = filter isTrackStop (trace s).
Proof.
  intros n k e [md gc sys sc] [a m st d ov g tx v tr nc ns nt] H.
  cbn in H. subst nc.
  unfold_script; split_on_tests;
    (split; [rewrite ?filter_app, ?stopped_filter_all by reflexivity; reflexivity|]);
    (split; [reflexivity|]);
    (split; [|reflexivity]);
    newer_than (stopped 0 n ++ tr); split; reflexivity.
Qed.

Lemma camera_stream_released_witness :
  awaitingCamera (step (EvStartClick hostReady) pageLoaded) = 1 /\
  filter isTrackStop
    (trace (run [EvStartClick hostReady; EvCameraSettled (Fulfilled 2) hostReady]
              pageLoaded)) = [TrackStop 1; TrackStop 0].
Proof.
  split; [reflexivity|].
  exact (proj1 (camera_stream_released 2 0 "" hostReady
                  (step (EvStartClick hostReady) pageLoaded) eq_refl)).
Defined.

Lemma step_withoutPreview : forall e s,
  isPreviewEv e = false ->
  withoutPreview (step e s) = step e (withoutPreview s).
Proof.
  intros e s. symbolic_step e s; intros H; try discriminate H;
    unfold withoutPreview; simpl;
    rewrite ?filter_app, ?stopped_filter_all by reflexivity; reflexivity.
Qed.

Lemma run_withoutPreview : forall es s,
  withoutPreview (run es s) =
  run (filter (fun e => negb (isPreviewEv e)) es) (withoutPreview s).
Proof.
  induction es as [|e es IH]; intros s; [reflexivity|].
  rewrite run_cons, IH. cbn [filter].
  destruct (isPreviewEv e) eqn:P; cbn [negb].
  - destruct e; try discriminate P. reflexivity.
  - rewrite run_cons, step_withoutPreview by exact P. reflexivity.
Qed.

Lemma filter_twice : forall (A : Type) (p : A -> bool) l,
  filter p (filter p l) = filter p l.
Proof.
  intros A p. induction l as [|x l IH]; [reflexivity|].
  cbn. destruct (p x) eqn:E; cbn; rewrite ?E, IH; reflexivity.
Qed.

(** X12: the preview button is independent of everything else: clicks on it,
    anywhere in a schedule, change neither the flags nor the page nor what
    is pending, and apart from their own window.open calls the script makes
    the same external calls in the same order as without them. *)
Theorem preview_does_not_interfere : forall (es : list Event) (s : State),
  let es' := filter (fun e => negb (isPreviewEv e)) es in
  withoutPreview (run es s) = withoutPreview (run es' s) /\
  flags (run es s) = flags (run es' s) /\
  ui (run es s) = ui (run es' s) /\
  pending (run es s) = pending (run es' s).
Proof.
  intros es s es'.
  assert (E : withoutPreview (run es s) = withoutPreview (run es' s)).
  { rewrite (run_withoutPreview es s), (run_withoutPreview es' s).
    unfold es'. rewrite filter_twice. reflexivity. }
  split; [exact E|].
  repeat split.
  - change (flags (withoutPreview (run es s)) = flags (withoutPreview (run es' s))).
    rewrite E. reflexivity.
  - change (ui (withoutPreview (run es s)) = ui (withoutPreview (run es' s))).
    rewrite E. reflexivity.
  - change (pending (withoutPreview (run es s)) = pending (withoutPreview (run es' s))).
    rewrite E. reflexivity.
Qed.

Lemma step_tracker : forall e s,
  modelVisible (step e s) =
  match e with
  | EvTargetFound => "true"
  | EvTargetLost => "false"
  | _ => modelVisible s
  end.
Proof.
  intros e s. symbolic_step e s; reflexivity.
Qed.

(** X13: the model's visibility follows the tracker alone: after any schedule the
    'visible' attribute is 'true' if the last tracker event was targetFound,
    'false' if it was targetLost, and untouched if there was none; neither
    the readiness flags nor the start flow gate or change it. *)
Theorem model_visibility_follows_tracker : forall (es : list Event) (s : State),
  modelVisible (run es s) =
  match lastTracker es with
  | Some true => "true"
  | Some false => "false"
  | None => modelVisible s
  end.
Proof.
  induction es as [|e es IH]; intros s; [reflexivity|].
  rewrite run_cons, IH, step_tracker. cbn [lastTracker].
  destruct (lastTracker es) as [[]|]; try reflexivity.
  destruct e; reflexivity.
Qed.

Lemma step_stall_budget : forall e s,
  statusCount msgStall s + timers s <= effectCount isSetTimeout s ->
  statusCount msgStall (step e s) + timers (step e s)
    <= effectCount isSetTimeout (step e s).
Proof.
  intros e s. symbolic_step e s; unfold effectCount; count_status;
    rewrite ?filter_app, ?stopped_filter_nil by reflexivity; simpl; lia.
Qed.

(** X14: the waiting hint is logged at most once per 'load' event of the
    session: each timer set by the load listener runs its callback once. *)
Theorem stall_hint_once_per_load :
  forall (es : list Event) (d : bool) (ov g tx v : string),
  statusCount msgStall (run es (initState d ov g tx v))
    <= List.length (filter isLoadEv es).
Proof.
  intros es d ov g tx v.
  assert (H : forall es s,
             statusCount msgStall s + timers s <= effectCount isSetTimeout s ->
             statusCount msgStall (run es s) + timers (run es s)
               <= effectCount isSetTimeout (run es s)).
  { clear es. induction es as [|e es IH]; intros s Hs; [exact Hs|].
    rewrite run_cons. apply IH, step_stall_budget, Hs. }
  specialize (H es (initState d ov g tx v)).
  pose proof (run_count (effectCount isSetTimeout) isLoadEv step_setTimeouts
                es (initState d ov g tx v)) as C.
  cbn in H, C. unfold statusCount, effectCount in *.
  cbn in H, C. lia.
Qed.
